(** * Balinex task service: prime counting, probes and graceful shutdown

    A shallow embedding of [app/main.py]: the CPU-bound [count_primes], the
    Flask handlers [health], [ready] and [compute], the two process-wide
    flags and the signal handler [graceful_shutdown]. *)

From Stdlib Require Import ZArith List String Ascii Bool Lia.
From Stdlib Require Import SpecFloat.
Import ListNotations.
Open Scope Z_scope.

(** ** Python exceptions and fallible evaluation *)

(** The exception classes the handlers can meet.  [HTTPException] stands for
    the werkzeug exceptions Flask raises itself; it is not a [ValueError]. *)
Inductive exn : Type :=
| ValueError
| TypeError
| OverflowError
| KeyError
| HTTPException (code : Z).

Inductive result (A : Type) : Type :=
| Ok (a : A)
| Raise (e : exn).
Arguments Ok {A} a.
Arguments Raise {A} e.

Definition bind {A B : Type} (m : result A) (k : A -> result B) : result B :=
  match m with
  | Ok a => k a
  | Raise e => Raise e
  end.

Notation "x <- m ;; k" := (bind m (fun x => k))
  (at level 61, m at next level, right associativity).

(** ** Python values

    What [request.get_json()] can hand to the handler, and what [jsonify]
    takes.  A [float] is an IEEE-754 binary64 number; a [dict] keeps its
    items in insertion order and is searched from the front. *)
#[warnings="-register-all"]
Inductive pyval : Type :=
| PyNone
| PyBool (b : bool)
| PyInt (z : Z)
| PyFloat (f : spec_float)
| PyStr (s : string)
| PyList (l : list pyval)
| PyDict (items : list (string * pyval)).

Module Float.
Definition prec : Z := 53.
Definition emax : Z := 1024.

(** [float(z)] for an [int]: rounded to nearest even, [OverflowError] when
    the magnitude is beyond the binary64 range. *)
Definition of_int (z : Z) : result spec_float :=
  match binary_normalize prec emax z 0 false with
  | S754_infinity _ => Raise OverflowError
  | f => Ok f
  end.

(** [x ** 0.5] on the non-negative floats [count_primes] feeds it: the
    binary64 square root, rounded to nearest even. *)
Definition pow_half (x : spec_float) : spec_float := SFsqrt prec emax x.

(** [int(x)]: truncation toward zero; [int(nan)] is a [ValueError],
    [int(inf)] an [OverflowError]. *)
Definition to_int (x : spec_float) : result Z :=
  match x with
  | S754_zero _ => Ok 0
  | S754_nan => Raise ValueError
  | S754_infinity _ => Raise OverflowError
  | S754_finite s m e =>
      let mag := match e with
                 | Zneg p => Z.shiftr (Zpos m) (Zpos p)
                 | _ => Z.shiftl (Zpos m) e
                 end in
      Ok (if s then - mag else mag)
  end.

(** Truth value of a float: only the two zeros are false. *)
Definition truthy (x : spec_float) : bool :=
  match x with
  | S754_zero _ => false
  | _ => true
  end.
End Float.

(** ** [range] and [count_primes] *)

(** [range(lo, hi)]: the integers [lo], [lo+1], ..., [hi-1]; empty when
    [hi <= lo]. *)
Fixpoint range_from (len : nat) (lo : Z) : list Z :=
  match len with
  | O => []
  | S len' => lo :: range_from len' (lo + 1)
  end.

Definition range (lo hi : Z) : list Z := range_from (Z.to_nat (hi - lo)) lo.

(** [int(num ** 0.5)] *)
Definition int_sqrt (num : Z) : result Z :=
  x <- Float.of_int num ;;
  Float.to_int (Float.pow_half x).

(** The inner [for i in range(2, int(num ** 0.5) + 1)] loop with its
    [break]; the value is [is_prime] when the loop is left. *)
Fixpoint trial_loop (num : Z) (candidates : list Z) : bool :=
  match candidates with
  | [] => true
  | i :: rest => if num mod i =? 0 then false else trial_loop num rest
  end.

(** The outer [for num in range(2, n + 1)] loop, threading [count]. *)
Fixpoint count_loop (nums : list Z) (count : Z) : result Z :=
  match nums with
  | [] => Ok count
  | num :: rest =>
      r <- int_sqrt num ;;
      let is_prime := trial_loop num (range 2 (r + 1)) in
      count_loop rest (if is_prime then count + 1 else count)
  end.

Definition count_primes (n : Z) : result Z :=
  if n <? 2 then Ok 0 else count_loop (range 2 (n + 1)) 0.

(** *** The count as the specification words it *)

(** A candidate is prime iff no integer from 2 up to and including the floor
    of its square root divides it evenly. *)
Definition trial_division_prime (num : Z) : bool :=
  forallb (fun i => negb (num mod i =? 0)) (range 2 (Z.sqrt num + 1)).

(** The number of such candidates in the inclusive range [2, n]. *)
Definition primes_upto (n : Z) : Z :=
  Z.of_nat (List.length (filter trial_division_prime (range 2 (n + 1)))).

(** *** Checking the float detour by exhaustion *)

(** A bounded universal check that runs in constant stack. *)
Fixpoint all_from (P : Z -> bool) (len : nat) (lo : Z) : bool :=
  match len with
  | O => true
  | S len' => if P lo then all_from P len' (lo + 1) else false
  end.

(** Does [int(num ** 0.5)] return the integer square root? *)
Definition int_sqrt_exact (num : Z) : bool :=
  match int_sqrt num with
  | Ok r => r =? Z.sqrt num
  | Raise _ => false
  end.

(** ** The Python operators [compute] applies to the request body *)

(** A [str] is modelled by its code points, taken below 256. *)
Definition code_point (c : ascii) : Z := Z.of_N (N_of_ascii c).

(** The characters [int] skips around the digits: tab, line feed, vertical
    tab, form feed, carriage return and space, and the two Latin-1 spaces
    U+0085 and U+00A0. *)
Definition is_space (c : ascii) : bool :=
  let n := code_point c in
  ((9 <=? n) && (n <=? 13)) || (n =? 32) || (n =? 133) || (n =? 160).

Definition digit_value (c : ascii) : option Z :=
  let n := code_point c in
  if (48 <=? n) && (n <=? 57) then Some (n - 48) else None.

Fixpoint skip_spaces (s : string) : string :=
  match s with
  | String c rest => if is_space c then skip_spaces rest else s
  | EmptyString => s
  end.

(** The digit scan of [int(str)]: decimal digits, with single underscores
    allowed between them.  It stops at the first other character and yields
    the value read, the number of digits and the unread rest; [None] on a
    doubled or trailing underscore. *)
Fixpoint scan_digits (s : string) (prev_underscore : bool) (acc digits : Z)
  : option (Z * Z * string) :=
  match s with
  | EmptyString => if prev_underscore then None else Some (acc, digits, s)
  | String c rest =>
      if Ascii.eqb c "_"%char then
        if prev_underscore then None else scan_digits rest true acc digits
      else
        match digit_value c with
        | Some d => scan_digits rest false (acc * 10 + d) (digits + 1)
        | None => if prev_underscore then None else Some (acc, digits, s)
        end
  end.

(** CPython's default limit on the digits of a decimal string handed to
    [int] ([sys.int_info.default_max_str_digits]). *)
Definition int_max_str_digits : Z := 4300.

(** [int(s)] for a [str], base 10: surrounding whitespace, an optional sign,
    then digits; anything else is a [ValueError]. *)
Definition py_int_of_str (s : string) : result Z :=
  let s1 := skip_spaces s in
  let '(negative, s2) :=
    match s1 with
    | String "+" rest => (false, rest)
    | String "-" rest => (true, rest)
    | _ => (false, s1)
    end in
  match s2 with
  | String "_" _ => Raise ValueError
  | _ =>
      match scan_digits s2 false 0 0 with
      | None => Raise ValueError
      | Some (magnitude, digits, rest) =>
          if digits =? 0 then Raise ValueError
          else if int_max_str_digits <? digits then Raise ValueError
          else
            match skip_spaces rest with
            | EmptyString => Ok (if negative then - magnitude else magnitude)
            | String _ _ => Raise ValueError
            end
      end
  end.

(** [int(v)]: an [int] is kept, a [bool] becomes 0 or 1, a [float] is
    truncated, a [str] is parsed; [None], lists and dicts are a
    [TypeError]. *)
Definition py_int (v : pyval) : result Z :=
  match v with
  | PyInt z => Ok z
  | PyBool b => Ok (if b then 1 else 0)
  | PyFloat f => Float.to_int f
  | PyStr s => py_int_of_str s
  | PyNone | PyList _ | PyDict _ => Raise TypeError
  end.

(** [bool(v)], as [not data] tests it. *)
Definition py_truthy (v : pyval) : bool :=
  match v with
  | PyNone => false
  | PyBool b => b
  | PyInt z => negb (z =? 0)
  | PyFloat f => Float.truthy f
  | PyStr s => negb (String.eqb s "")
  | PyList l => match l with [] => false | _ :: _ => true end
  | PyDict items => match items with [] => false | _ :: _ => true end
  end.

Definition dict_get (key : string) (items : list (string * pyval))
  : option pyval :=
  option_map snd (find (fun kv => String.eqb (fst kv) key) items).

Definition str_equals (key : string) (v : pyval) : bool :=
  match v with
  | PyStr s => String.eqb s key
  | _ => false
  end.

(** [key in data]: a key of a dict, an element of a list, a substring of a
    str; a [TypeError] on values that are not containers. *)
Definition py_contains (key : string) (data : pyval) : result bool :=
  match data with
  | PyDict items =>
      Ok (match dict_get key items with Some _ => true | None => false end)
  | PyList l => Ok (existsb (str_equals key) l)
  | PyStr s =>
      Ok (match index 0 key s with Some _ => true | None => false end)
  | PyNone | PyBool _ | PyInt _ | PyFloat _ => Raise TypeError
  end.

(** [data[key]] with a [str] key: only a dict can be indexed that way. *)
Definition py_getitem (data : pyval) (key : string) : result pyval :=
  match data with
  | PyDict items =>
      match dict_get key items with
      | Some v => Ok v
      | None => Raise KeyError
      end
  | _ => Raise TypeError
  end.

(** ** Process-wide state, responses and log records *)

(** The two module-level flags. *)
Record globals : Type := {
  is_ready : bool;
  shutdown_in_progress : bool
}.

(** What a view returns: [jsonify(body), status]. *)
Record response : Type := {
  body : pyval;
  status : Z
}.

Definition jsonify (items : list (string * pyval)) (code : Z) : response :=
  {| body := PyDict items; status := code |}.

Inductive log_record : Type :=
| Info (message : string)
| InfoComputed (n result : Z) (latency : spec_float)
| Error (e : exn).

(** A view reads and may write the globals, may log, and returns a value. *)
Record outcome (A : Type) : Type := {
  returned : A;
  globals_after : globals;
  logged : list log_record
}.
Arguments returned {A} _.
Arguments globals_after {A} _.
Arguments logged {A} _.

Definition view (A : Type) : Type := globals -> outcome A.

Definition ret {A : Type} (a : A) : view A :=
  fun g => {| returned := a; globals_after := g; logged := [] |}.

Definition then_ {A B : Type} (m : view A) (k : A -> view B) : view B :=
  fun g =>
    let o := m g in
    let o' := k (returned o) (globals_after o) in
    {| returned := returned o';
       globals_after := globals_after o';
       logged := logged o ++ logged o' |}.

Definition read_globals : view globals :=
  fun g => {| returned := g; globals_after := g; logged := [] |}.

Definition log (r : log_record) : view unit :=
  fun g => {| returned := tt; globals_after := g; logged := [r] |}.

Notation "x <~ m ;; k" := (then_ m (fun x => k))
  (at level 61, m at next level, right associativity).

(** ** The probes *)

Definition health : view response :=
  g <~ read_globals ;;
  if shutdown_in_progress g
  then ret (jsonify [("status"%string, PyStr "shutting down")] 503)
  else ret (jsonify [("status"%string, PyStr "healthy")] 200).

Definition ready : view response :=
  g <~ read_globals ;;
  if negb (is_ready g) || shutdown_in_progress g
  then ret (jsonify [("status"%string, PyStr "not ready")] 503)
  else ret (jsonify [("status"%string, PyStr "ready")] 200).

(** ** The compute endpoint *)

(** What one POST /compute sees of its surroundings: the outcome of
    [request.get_json()], which is a decoded value, [None], or an exception
    of Flask's own, and the two readings of [time.time()]. *)
Record environ : Type := {
  get_json : result pyval;
  time_before : spec_float;
  time_after : spec_float
}.

(** A request whose body decoded to [data], handled between the clock
    readings [t0] and [t1]. *)
Definition json_request (data : pyval) (t0 t1 : spec_float) : environ :=
  {| get_json := Ok data; time_before := t0; time_after := t1 |}.

(** A request on which [request.get_json()] raised [e]. *)
Definition failing_request (e : exn) (t0 t1 : spec_float) : environ :=
  {| get_json := Raise e; time_before := t0; time_after := t1 |}.

(** The JSON object [{"n": v}]. *)
Definition n_is (v : pyval) : pyval := PyDict [("n"%string, v)].

(** The binary64 number nearest to 10.9, [0x1.5cccccccccccdp+3]. *)
Definition ten_point_nine : spec_float :=
  S754_finite false 6136154492292301 (-49).

Section Compute.

(** The builtin [round(x, ndigits)] on floats. *)
Variable py_round : spec_float -> Z -> spec_float.

(** The body of the [try] block: a response with the lines it logged, or
    the exception that left the block. *)
Definition compute_try (env : environ)
  : result (response * list log_record) :=
  data <- get_json env ;;
  missing <- (if negb (py_truthy data) then Ok true
              else present <- py_contains "n" data ;; Ok (negb present)) ;;
  if missing : bool then
    Ok (jsonify [("error"%string, PyStr "missing 'n' parameter")] 400, [])
  else
    item <- py_getitem data "n" ;;
    n <- py_int item ;;
    if (n <? 0) || (n >? 100000) then
      Ok (jsonify [("error"%string,
                    PyStr "n must be between 0 and 100000")] 400, [])
    else
      let start_time := time_before env in
      result <- count_primes n ;;
      let latency := SFsub Float.prec Float.emax (time_after env) start_time in
      Ok (jsonify [("n"%string, PyInt n);
                   ("primes_count"%string, PyInt result);
                   ("latency_seconds"%string, PyFloat (py_round latency 4))]
                  200,
          [InfoComputed n result latency]).

(** [compute]: the [try] block under its two [except] clauses. *)
Definition compute (env : environ) : view response :=
  match compute_try env with
  | Ok (resp, lines) =>
      fun g => {| returned := resp; globals_after := g; logged := lines |}
  | Raise ValueError =>
      ret (jsonify [("error"%string, PyStr "invalid input")] 400)
  | Raise e =>
      _ <~ log (Error e) ;;
      ret (jsonify [("error"%string, PyStr "internal server error")] 500)
  end.

End Compute.

(** ** The environment: [version] and the port *)

(** The environment variables of the process, first binding first. *)
Definition os_environ : Type := list (string * string).

(** [os.getenv(key, default)]: the variable's value as a [str] when it is
    set, the default as given otherwise. *)
Definition os_getenv (vars : os_environ) (key : string) (default : pyval)
  : pyval :=
  match find (fun kv => String.eqb (fst kv) key) vars with
  | Some kv => PyStr (snd kv)
  | None => default
  end.

Definition version (vars : os_environ) : view response :=
  let app_version := os_getenv vars "APP_VERSION" (PyStr "unknown") in
  ret (jsonify [("version"%string, app_version)] 200).

(** Line 119: [port = int(os.getenv('PORT', 8080))]. *)
Definition main_port (vars : os_environ) : result Z :=
  py_int (os_getenv vars "PORT" (PyInt 8080)).

(** ** The process: startup, requests, signals and exit *)

Inductive signal : Type := SIGINT | SIGTERM.

(** Where the main program is: in [time.sleep(2)] with both signal handlers
    registered and "Starting up..." logged, or in [app.run]. *)
Inductive phase : Type := WarmingUp | Serving.

Inductive http_request : Type :=
| GetHealthz
| GetReadyz
| PostCompute (env : environ).

(** [now] counts seconds since the process started.  [shutdowns] holds, for
    every activation of [graceful_shutdown] that is in its [time.sleep(5)],
    the time it began to sleep, innermost activation first. *)
Record process : Type := {
  flags : globals;
  main : phase;
  now : Z;
  shutdowns : list Z;
  exit_code : option Z;
  journal : list log_record
}.

Definition startup_delay : Z := 2.
Definition shutdown_delay : Z := 5.

(** Lines 21 and 22, then the first lines of [__main__]. *)
Definition initial : process :=
  {| flags := {| is_ready := true; shutdown_in_progress := false |};
     main := WarmingUp;
     now := 0;
     shutdowns := [];
     exit_code := None;
     journal := [Info "Starting up..."] |}.

Inductive event : Type :=
| Elapse (dt : Z)
| StartupDone
| Deliver (s : signal)
| ShutdownDone
| Serve (r : http_request).

Definition elapse (dt : Z) (p : process) : process :=
  {| flags := flags p; main := main p; now := now p + dt;
     shutdowns := shutdowns p; exit_code := exit_code p;
     journal := journal p |}.

(** [__main__] after the warm-up sleep, lines 115 and 116:
    [is_ready = True] and the log line. *)
Definition finish_startup (p : process) : process :=
  {| flags := {| is_ready := true;
                 shutdown_in_progress := shutdown_in_progress (flags p) |};
     main := main p; now := now p;
     shutdowns := shutdowns p; exit_code := exit_code p;
     journal := journal p ++ [Info "Application ready to serve traffic"] |}.

(** The exit status of a process that an uncaught exception ends, and of
    the server when it cannot bind its port. *)
Definition startup_failure_status : Z := 1.

(** The main program enters [app.run]. *)
Definition enter_app_run (p : process) : process :=
  {| flags := flags p; main := Serving; now := now p;
     shutdowns := shutdowns p; exit_code := exit_code p;
     journal := journal p |}.

(** The process ends with [status] without having served. *)
Definition abort (status : Z) (p : process) : process :=
  {| flags := flags p; main := main p; now := now p;
     shutdowns := shutdowns p; exit_code := Some status;
     journal := journal p |}.

(** [graceful_shutdown] up to and into its [time.sleep(5)]. *)
Definition graceful_shutdown_enter (p : process) : process :=
  {| flags := {| is_ready := is_ready (flags p);
                 shutdown_in_progress := true |};
     main := main p; now := now p;
     shutdowns := now p :: shutdowns p; exit_code := exit_code p;
     journal := journal p ++
       [Info "Received shutdown signal, starting graceful shutdown..."] |}.

(** [graceful_shutdown] after the sleep: the log line and [sys.exit(0)]. *)
Definition graceful_shutdown_leave (p : process) : process :=
  {| flags := flags p; main := main p; now := now p;
     shutdowns := shutdowns p; exit_code := Some 0;
     journal := journal p ++ [Info "Shutdown complete"] |}.

(** Both [signal.signal] calls register the same handler. *)
Definition on_signal (s : signal) : process -> process :=
  match s with
  | SIGTERM => graceful_shutdown_enter
  | SIGINT => graceful_shutdown_enter
  end.

Section Process.

Variable py_round : spec_float -> Z -> spec_float.

(** The environment variables the process was started with. *)
Variable vars : os_environ.

(** Whether [app.run] can bind the port it is given and serve on it. *)
Variable listens : Z -> bool.

(** Lines 119 and 120: the port lookup, then [app.run].  An exception out
    of [int], or a server that cannot start, ends the process. *)
Definition start_server (p : process) : process :=
  match main_port vars with
  | Ok port =>
      if listens port then enter_app_run p
      else abort startup_failure_status p
  | Raise _ => abort startup_failure_status p
  end.

Definition dispatch (r : http_request) : view response :=
  match r with
  | GetHealthz => health
  | GetReadyz => ready
  | PostCompute env => compute py_round env
  end.

Definition serve (r : http_request) (p : process) : process :=
  let o := dispatch r (flags p) in
  {| flags := globals_after o; main := main p; now := now p;
     shutdowns := shutdowns p; exit_code := exit_code p;
     journal := journal p ++ logged o |}.

(** One step of the process; [None] when the event cannot happen in [p]. *)
Definition step (p : process) (e : event) : option process :=
  match exit_code p with
  | Some _ => None
  | None =>
      match e with
      | Elapse dt => if 0 <=? dt then Some (elapse dt p) else None
      | StartupDone =>
          match main p, shutdowns p with
          | WarmingUp, [] =>
              if startup_delay <=? now p
              then Some (start_server (finish_startup p))
              else None
          | _, _ => None
          end
      | Deliver s => Some (on_signal s p)
      | ShutdownDone =>
          match shutdowns p with
          | began :: _ =>
              if began + shutdown_delay <=? now p
              then Some (graceful_shutdown_leave p) else None
          | [] => None
          end
      | Serve r =>
          match main p with
          | Serving => Some (serve r p)
          | WarmingUp => None
          end
      end
  end.

Fixpoint run (p : process) (evs : list event) : option process :=
  match evs with
  | [] => Some p
  | e :: rest =>
      match step p e with
      | Some p' => run p' rest
      | None => None
      end
  end.

End Process.

Definition is_deliver (e : event) : bool :=
  match e with
  | Deliver _ => true
  | _ => false
  end.

(** What holds of every state the process reaches: the flag is up exactly
    when a handler sleeps, and an exit is either a failed startup, with the
    flag down, or the exit of a handler whose delay has passed. *)
Definition exits_cleanly (p : process) : Prop :=
  (shutdown_in_progress (flags p) = true <-> shutdowns p <> []) /\
  (forall c, exit_code p = Some c ->
     (c = startup_failure_status /\
      shutdown_in_progress (flags p) = false) \/
     (c = 0 /\ shutdown_in_progress (flags p) = true /\
      exists began, hd_error (shutdowns p) = Some began /\
                    began + shutdown_delay <= now p)).

(** What holds of every state the process reaches: the server runs only
    after the warm-up delay, and a handler that sleeps during warm-up keeps
    the main program there. *)
Definition serves_after_warmup (p : process) : Prop :=
  main p = Serving -> startup_delay <= now p.

(** ** Decimal numerals *)

(** The character of a decimal digit. *)
Definition digit_char (d : Z) : ascii := ascii_of_N (Z.to_N (48 + d)).

(** The digits of a non-negative [z], most significant first, put in front
    of [acc]; [fuel] bounds their number. *)
Fixpoint decimal_digits (fuel : nat) (z : Z) (acc : string) : string :=
  match fuel with
  | O => acc
  | S fuel' =>
      let acc' := String (digit_char (z mod 10)) acc in
      if z <? 10 then acc' else decimal_digits fuel' (z / 10) acc'
  end.

(** The decimal numeral of an integer, as [str(z)] and a JSON document write
    it: a minus sign for a negative number, no leading zeros. *)
Definition decimal (z : Z) : string :=
  if z <? 0
  then String "-" (decimal_digits (S (Z.to_nat (Z.log2 (- z)))) (- z) "")
  else decimal_digits (S (Z.to_nat (Z.log2 z))) z "".

(** ** Facts about [range] and the two loops *)

Lemma range_from_In (len : nat) (lo z : Z) :
  In z (range_from len lo) <-> lo <= z < lo + Z.of_nat len.
Proof.
  revert lo; induction len as [|len IH]; intros lo; cbn [range_from In].
  - lia.
  - rewrite IH. lia.
Qed.

Lemma range_In (lo hi z : Z) : In z (range lo hi) <-> lo <= z < hi.
Proof. unfold range. rewrite range_from_In. lia. Qed.

Lemma range_from_length (len : nat) (lo : Z) :
  List.length (range_from len lo) = len.
Proof. revert lo; induction len; intros; cbn; auto. Qed.

(** Leaving the inner loop with [is_prime] still set is the same as finding
    no divisor among the candidates. *)
Lemma trial_loop_forallb (num : Z) (cs : list Z) :
  trial_loop num cs = forallb (fun i => negb (num mod i =? 0)) cs.
Proof.
  induction cs as [|i cs IH]; cbn; [reflexivity|].
  destruct (num mod i =? 0); cbn; auto.
Qed.

Lemma all_from_spec (P : Z -> bool) (len : nat) (lo : Z) :
  all_from P len lo = true ->
  forall z, lo <= z < lo + Z.of_nat len -> P z = true.
Proof.
  revert lo; induction len as [|len IH]; intros lo H z Hz; [lia|].
  cbn [all_from] in H. destruct (P lo) eqn:E; [|discriminate].
  destruct (Z.eq_dec z lo) as [->|Hne]; [assumption|].
  apply (IH (lo + 1)); [assumption|lia].
Qed.

(** On every candidate the service can reach, the float detour
    [int(num ** 0.5)] is the integer square root. *)
Lemma int_sqrt_checked : all_from int_sqrt_exact (Z.to_nat 99999) 2 = true.
Proof. vm_cast_no_check (eq_refl true). Qed.

Lemma int_sqrt_floor (num : Z) :
  2 <= num <= 100000 -> int_sqrt num = Ok (Z.sqrt num).
Proof.
  intros H.
  assert (E : int_sqrt_exact num = true)
    by (apply (all_from_spec _ _ _ int_sqrt_checked); lia).
  unfold int_sqrt_exact in E. destruct (int_sqrt num) as [r|e]; [|discriminate].
  apply Z.eqb_eq in E. now subst.
Qed.

Lemma count_loop_filter (len : nat) (lo count : Z) :
  2 <= lo -> lo + Z.of_nat len <= 100001 ->
  count_loop (range_from len lo) count =
  Ok (count + Z.of_nat (List.length (filter trial_division_prime (range_from len lo)))).
Proof.
  revert lo count; induction len as [|len IH]; intros lo count Hlo Hhi.
  - cbn. f_equal. lia.
  - cbn [range_from count_loop filter].
    rewrite int_sqrt_floor by lia. cbn [bind].
    rewrite trial_loop_forallb. fold (trial_division_prime lo).
    rewrite IH by lia.
    destruct (trial_division_prime lo); cbn [List.length]; f_equal; lia.
Qed.

Lemma count_primes_primes_upto (n : Z) :
  0 <= n <= 100000 -> count_primes n = Ok (primes_upto n).
Proof.
  intros H. unfold count_primes, primes_upto, range.
  destruct (n <? 2) eqn:E.
  - apply Z.ltb_lt in E.
    replace (Z.to_nat (n + 1 - 2)) with O by lia. reflexivity.
  - apply Z.ltb_ge in E. rewrite count_loop_filter by lia. reflexivity.
Qed.

(** Trial division up to the square root decides primality. *)
Lemma trial_division_prime_iff (num : Z) :
  2 <= num -> (trial_division_prime num = true <-> Z.prime num).
Proof.
  intros Hnum. unfold trial_division_prime. rewrite forallb_forall.
  assert (Hs := Z.sqrt_spec num ltac:(lia)). cbv zeta in Hs.
  assert (Hs0 := Z.sqrt_nonneg num).
  assert (Hlt : Z.sqrt num < num) by (apply Z.sqrt_lt_lin; lia).
  split.
  - intros Hall. split; [lia|]. intros d Hd [q Hq].
    assert (Hqpos : 1 < q < num) by nia.
    assert (Hmin : exists i, 2 <= i <= Z.sqrt num /\ num mod i = 0).
    { destruct (Z_le_gt_dec d (Z.sqrt num)) as [Hle|Hgt].
      - exists d. split; [lia|]. subst num. apply Z.mod_mul. lia.
      - exists q. split.
        + split; [lia|].
          destruct (Z_le_gt_dec q (Z.sqrt num)) as [|Hq']; [assumption|exfalso].
          assert (Z.succ (Z.sqrt num) * Z.succ (Z.sqrt num) <= q * d)
            by (apply Z.mul_le_mono_nonneg; lia).
          lia.
        + subst num. rewrite Z.mul_comm. apply Z.mod_mul. lia. }
    destruct Hmin as (i & Hi & Hmod).
    specialize (Hall i ltac:(apply range_In; lia)).
    rewrite Hmod in Hall. discriminate.
  - intros [_ Hp] i Hi. apply range_In in Hi.
    destruct (num mod i =? 0) eqn:E; [exfalso|reflexivity].
    apply Z.eqb_eq in E. apply (Hp i); [lia|].
    apply Z.mod_divide; [lia|assumption].
Qed.

(** ** Claims about [count_primes] *)

(** C1: for every integer n in [0, 100000], [count_primes n] returns the
    number of candidates in [2, n] that trial division up to the floor of the
    square root finds prime; [count_primes] is 0 at 0 and 1, 1 at 2 and 4 at
    10. *)
Theorem count_primes_trial_division (n : Z) :
  0 <= n <= 100000 ->
  count_primes n = Ok (primes_upto n) /\
  count_primes 0 = Ok 0 /\ count_primes 1 = Ok 0 /\
  count_primes 2 = Ok 1 /\ count_primes 10 = Ok 4.
Proof.
  intros H. split; [exact (count_primes_primes_upto n H)|].
  repeat split; vm_compute; reflexivity.
Qed.

Lemma count_primes_trial_division_witness :
  0 <= 97 <= 100000 /\
  (count_primes 97 = Ok (primes_upto 97) /\
   count_primes 0 = Ok 0 /\ count_primes 1 = Ok 0 /\
   count_primes 2 = Ok 1 /\ count_primes 10 = Ok 4).
Proof. split; [lia | apply (count_primes_trial_division 97); lia]. Defined.


(** ** Facts about the views *)

Section ComputeFacts.

Variable py_round : spec_float -> Z -> spec_float.

(** Once the body is an object that has the field, the [try] block is the
    conversion followed by the range check and the count. *)
Lemma compute_try_field (env : environ) items v :
  get_json env = Ok (PyDict items) ->
  dict_get "n" items = Some v ->
  compute_try py_round env =
  (n <- py_int v ;;
   if (n <? 0) || (n >? 100000) then
     Ok (jsonify [("error"%string,
                   PyStr "n must be between 0 and 100000")] 400, [])
   else
     result <- count_primes n ;;
     let latency :=
       SFsub Float.prec Float.emax (time_after env) (time_before env) in
     Ok (jsonify [("n"%string, PyInt n);
                  ("primes_count"%string, PyInt result);
                  ("latency_seconds"%string, PyFloat (py_round latency 4))]
                 200,
         [InfoComputed n result latency])).
Proof.
  intros Hjson Hget. unfold compute_try. rewrite Hjson. cbn [bind].
  destruct items as [|kv items]; [discriminate|].
  cbn [py_truthy negb py_contains py_getitem]. rewrite Hget. reflexivity.
Qed.

Lemma compute_accepts (env : environ) (g : globals) items v n :
  get_json env = Ok (PyDict items) ->
  dict_get "n" items = Some v ->
  py_int v = Ok n ->
  0 <= n <= 100000 ->
  compute py_round env g =
  let latency :=
    SFsub Float.prec Float.emax (time_after env) (time_before env) in
  {| returned :=
       jsonify [("n"%string, PyInt n);
                ("primes_count"%string, PyInt (primes_upto n));
                ("latency_seconds"%string, PyFloat (py_round latency 4))] 200;
     globals_after := g;
     logged := [InfoComputed n (primes_upto n) latency] |}.
Proof.
  intros Hjson Hget Hint Hn. unfold compute.
  rewrite (compute_try_field env items v Hjson Hget), Hint. cbn [bind].
  replace ((n <? 0) || (n >? 100000)) with false by lia.
  rewrite (count_primes_primes_upto n Hn). reflexivity.
Qed.

Lemma compute_rejects (env : environ) (g : globals) items v n :
  get_json env = Ok (PyDict items) ->
  dict_get "n" items = Some v ->
  py_int v = Ok n ->
  n < 0 \/ 100000 < n ->
  compute py_round env g =
  {| returned :=
       jsonify [("error"%string, PyStr "n must be between 0 and 100000")] 400;
     globals_after := g;
     logged := [] |}.
Proof.
  intros Hjson Hget Hint Hn. unfold compute.
  rewrite (compute_try_field env items v Hjson Hget), Hint. cbn [bind].
  replace ((n <? 0) || (n >? 100000)) with true by lia.
  reflexivity.
Qed.

(** No path through [compute] assigns a global. *)
Lemma compute_globals (env : environ) (g : globals) :
  globals_after (compute py_round env g) = g.
Proof.
  unfold compute.
  destruct (compute_try py_round env) as [[resp lines]|[]]; reflexivity.
Qed.

Lemma dispatch_globals (r : http_request) (g : globals) :
  globals_after (dispatch py_round r g) = g.
Proof.
  destruct r as [| |env]; cbn [dispatch].
  - unfold health, then_, read_globals; cbn.
    destruct (shutdown_in_progress g); reflexivity.
  - unfold ready, then_, read_globals; cbn.
    destruct (negb (is_ready g) || shutdown_in_progress g); reflexivity.
  - apply compute_globals.
Qed.

End ComputeFacts.

(** ** Facts about the process *)

Section ProcessFacts.

Variable py_round : spec_float -> Z -> spec_float.
Variable vars : os_environ.
Variable listens : Z -> bool.

Ltac step_cases H :=
  unfold step, start_server in H;
  repeat match type of H with
         | context [match ?x with _ => _ end] => destruct x eqn:?
         end;
  try discriminate; injection H as <-.

(** Starting the server touches neither flag. *)
Lemma start_server_flags (p : process) :
  flags (start_server vars listens p) = flags p.
Proof.
  unfold start_server.
  destruct (main_port vars) as [port|e]; [destruct (listens port)|];
    reflexivity.
Qed.

(** A step leaves the shutdown flag alone unless it delivers a signal, which
    sets it. *)
Lemma step_shutdown_flag (p p' : process) (e : event) :
  step py_round vars listens p e = Some p' ->
  shutdown_in_progress (flags p') =
  shutdown_in_progress (flags p) || is_deliver e.
Proof.
  intros H. destruct e as [dt| |s| |r]; step_cases H; try destruct s; cbn;
    rewrite ?dispatch_globals, ?orb_false_r, ?orb_true_r; reflexivity.
Qed.

Lemma step_is_ready (p p' : process) (e : event) :
  step py_round vars listens p e = Some p' ->
  is_ready (flags p) = true -> is_ready (flags p') = true.
Proof.
  intros H Hr. destruct e as [dt| |s| |r]; step_cases H; try destruct s; cbn;
    rewrite ?dispatch_globals; auto.
Qed.

Lemma run_app (p : process) (pre post : list event) :
  run py_round vars listens p (pre ++ post) =
  match run py_round vars listens p pre with
  | Some q => run py_round vars listens q post
  | None => None
  end.
Proof.
  revert p; induction pre as [|e pre IH]; intros p; cbn; [reflexivity|].
  destruct (step py_round vars listens p e); auto.
Qed.

Lemma run_shutdown_flag (evs : list event) (p p' : process) :
  run py_round vars listens p evs = Some p' ->
  shutdown_in_progress (flags p') =
  shutdown_in_progress (flags p) || existsb is_deliver evs.
Proof.
  revert p; induction evs as [|e evs IH]; intros p H; cbn in H.
  - injection H as <-. cbn. now rewrite orb_false_r.
  - destruct (step py_round vars listens p e) as [q|] eqn:E; [|discriminate].
    rewrite (IH q H), (step_shutdown_flag p q e E). cbn [existsb].
    now rewrite orb_assoc.
Qed.

Lemma run_is_ready (evs : list event) (p p' : process) :
  run py_round vars listens p evs = Some p' ->
  is_ready (flags p) = true -> is_ready (flags p') = true.
Proof.
  revert p; induction evs as [|e evs IH]; intros p H Hr; cbn in H.
  - now injection H as <-.
  - destruct (step py_round vars listens p e) as [q|] eqn:E; [|discriminate].
    eauto using step_is_ready.
Qed.

Lemma exits_cleanly_initial : exits_cleanly initial.
Proof.
  split; cbn.
  - split; [discriminate|congruence].
  - discriminate.
Qed.

Lemma exits_cleanly_step (p p' : process) (e : event) :
  exits_cleanly p -> step py_round vars listens p e = Some p' ->
  exits_cleanly p'.
Proof.
  intros [Hs Hx] H. unfold step in H.
  destruct (exit_code p) as [c0|] eqn:Hexit; [discriminate|].
  destruct e as [dt| |s| |r].
  - destruct (0 <=? dt); [|discriminate]. injection H as <-.
    split; cbn; [exact Hs|]. intros c Hc. congruence.
  - destruct (main p); [|discriminate].
    destruct (shutdowns p) as [|began rest] eqn:Hsh; [|discriminate].
    destruct (startup_delay <=? now p); [|discriminate]. injection H as <-.
    assert (Hdown : shutdown_in_progress (flags p) = false).
    { destruct (shutdown_in_progress (flags p)); [|reflexivity].
      exfalso. apply (proj1 Hs eq_refl). reflexivity. }
    unfold start_server.
    destruct (main_port vars) as [port|e]; [destruct (listens port)|];
      (split; cbn; [rewrite Hsh, Hdown; split; [discriminate|congruence]|]);
      intros c Hc; try congruence;
      injection Hc as <-; left; (split; [reflexivity|exact Hdown]).
  - injection H as <-. split.
    + destruct s; cbn; (split; [discriminate|reflexivity]).
    + intros c Hc. destruct s; cbn in Hc; congruence.
  - destruct (shutdowns p) as [|began rest] eqn:Hsh; [discriminate|].
    destruct (began + shutdown_delay <=? now p) eqn:Hlate; [|discriminate].
    injection H as <-. split; cbn; [rewrite Hsh; exact Hs|].
    intros c Hc. injection Hc as <-. right. repeat split.
    + apply Hs. discriminate.
    + exists began. rewrite Hsh. split; [reflexivity|]. lia.
  - destruct (main p); [discriminate|]. injection H as <-.
    split; cbn; rewrite ?dispatch_globals; [exact Hs|].
    intros c Hc. congruence.
Qed.

Lemma exits_cleanly_run (evs : list event) (p p' : process) :
  exits_cleanly p -> run py_round vars listens p evs = Some p' ->
  exits_cleanly p'.
Proof.
  revert p; induction evs as [|e evs IH]; intros p Hp H; cbn in H.
  - now injection H as <-.
  - destruct (step py_round vars listens p e) as [q|] eqn:E; [|discriminate].
    eauto using exits_cleanly_step.
Qed.

End ProcessFacts.

(** Every reachable state has [is_ready] set: line 21 starts it at [True]
    and nothing clears it. *)
Lemma is_ready_always (py_round : spec_float -> Z -> spec_float)
  (vars : os_environ) (listens : Z -> bool)
  (evs : list event) (p : process) :
  run py_round vars listens initial evs = Some p -> is_ready (flags p) = true.
Proof.
  intros H. now apply (run_is_ready py_round vars listens evs initial p H).
Qed.

(** The bodies that count as lacking [n]: a false value, or a container
    without it. *)
Lemma compute_missing (py_round : spec_float -> Z -> spec_float)
  (env : environ) (g : globals) (data : pyval) :
  get_json env = Ok data ->
  py_truthy data = false \/ py_contains "n" data = Ok false ->
  compute py_round env g =
  {| returned := jsonify [("error"%string, PyStr "missing 'n' parameter")] 400;
     globals_after := g;
     logged := [] |}.
Proof.
  intros Hjson H. unfold compute, compute_try. rewrite Hjson. cbn [bind].
  destruct (py_truthy data); cbn [negb].
  - destruct H as [H|H]; [discriminate|]. rewrite H. reflexivity.
  - reflexivity.
Qed.

(** How a failed conversion of the field is answered: by the first [except]
    clause for a [ValueError], by the second for anything else. *)
Lemma compute_conversion_fails (py_round : spec_float -> Z -> spec_float)
  (env : environ) (g : globals) items v e :
  get_json env = Ok (PyDict items) ->
  dict_get "n" items = Some v ->
  py_int v = Raise e ->
  compute py_round env g =
  match e with
  | ValueError =>
      {| returned := jsonify [("error"%string, PyStr "invalid input")] 400;
         globals_after := g;
         logged := [] |}
  | _ =>
      {| returned :=
           jsonify [("error"%string, PyStr "internal server error")] 500;
         globals_after := g;
         logged := [Error e] |}
  end.
Proof.
  intros Hjson Hget Hint. unfold compute.
  rewrite (compute_try_field py_round env items v Hjson Hget), Hint.
  destruct e; reflexivity.
Qed.

(** ** Claims about the probes *)

(** C5: GET /healthz answers 200 [{"status": "healthy"}] exactly when
    [shutdown_in_progress] is false and 503 [{"status": "shutting down"}]
    exactly when it is true; it leaves the globals as they were and logs
    nothing. *)
Theorem health_contract (g : globals) :
  (returned (health g) = jsonify [("status"%string, PyStr "healthy")] 200
   <-> shutdown_in_progress g = false) /\
  (returned (health g) = jsonify [("status"%string, PyStr "shutting down")] 503
   <-> shutdown_in_progress g = true) /\
  globals_after (health g) = g /\
  logged (health g) = [].
Proof.
  unfold health, then_, read_globals. cbn.
  destruct (shutdown_in_progress g); cbn;
    intuition (discriminate || congruence).
Qed.

(** C6: GET /readyz answers 200 [{"status": "ready"}] exactly when
    [is_ready] is true and [shutdown_in_progress] is false, and 503
    [{"status": "not ready"}] in every other case; it leaves the globals as
    they were and logs nothing. *)
Theorem ready_contract (g : globals) :
  (returned (ready g) = jsonify [("status"%string, PyStr "ready")] 200
   <-> is_ready g = true /\ shutdown_in_progress g = false) /\
  (returned (ready g) = jsonify [("status"%string, PyStr "not ready")] 503
   <-> ~ (is_ready g = true /\ shutdown_in_progress g = false)) /\
  globals_after (ready g) = g /\
  logged (ready g) = [].
Proof.
  unfold ready, then_, read_globals. cbn.
  destruct (is_ready g), (shutdown_in_progress g); cbn;
    intuition (discriminate || congruence).
Qed.

(** ** Claims about POST /compute *)

(** C2: a body that decodes to the empty object or to [None] is answered
    400 "missing 'n' parameter"; but a body that decodes to a bare number,
    which also lacks the field, and a body on which [request.get_json()]
    raised, are answered 500 "internal server error" by the second [except]
    clause. *)
Theorem compute_missing_field_cases
  (py_round : spec_float -> Z -> spec_float) (t0 t1 : spec_float)
  (g : globals) :
  compute py_round (json_request (PyDict []) t0 t1) g =
    {| returned :=
         jsonify [("error"%string, PyStr "missing 'n' parameter")] 400;
       globals_after := g; logged := [] |} /\
  compute py_round (json_request PyNone t0 t1) g =
    {| returned :=
         jsonify [("error"%string, PyStr "missing 'n' parameter")] 400;
       globals_after := g; logged := [] |} /\
  compute py_round (json_request (PyInt 5) t0 t1) g =
    {| returned :=
         jsonify [("error"%string, PyStr "internal server error")] 500;
       globals_after := g; logged := [Error TypeError] |} /\
  compute py_round (failing_request (HTTPException 400) t0 t1) g =
    {| returned :=
         jsonify [("error"%string, PyStr "internal server error")] 500;
       globals_after := g; logged := [Error (HTTPException 400)] |}.
Proof. repeat split. Qed.

(** C3: [{"n": "abc"}] is answered 400 "invalid input", since [int("abc")]
    is a [ValueError]; but [{"n": null}] and [{"n": []}] make [int] raise a
    [TypeError], which the second [except] clause answers with 500
    "internal server error". *)
Theorem compute_unconvertible_cases
  (py_round : spec_float -> Z -> spec_float) (t0 t1 : spec_float)
  (g : globals) :
  compute py_round (json_request (n_is (PyStr "abc")) t0 t1) g =
    {| returned := jsonify [("error"%string, PyStr "invalid input")] 400;
       globals_after := g; logged := [] |} /\
  compute py_round (json_request (n_is PyNone) t0 t1) g =
    {| returned :=
         jsonify [("error"%string, PyStr "internal server error")] 500;
       globals_after := g; logged := [Error TypeError] |} /\
  compute py_round (json_request (n_is (PyList [])) t0 t1) g =
    {| returned :=
         jsonify [("error"%string, PyStr "internal server error")] 500;
       globals_after := g; logged := [Error TypeError] |}.
Proof. repeat split. Qed.

(** C4: when the field [n] converts to an integer below 0 or above 100000,
    the answer is 400 "n must be between 0 and 100000"; -1 and 100001 are
    rejected that way, while 0 and 100000 are counted and answered 200. *)
Theorem compute_range_check
  (py_round : spec_float -> Z -> spec_float) (env : environ) (g : globals)
  (items : list (string * pyval)) (v : pyval) (n : Z) :
  get_json env = Ok (PyDict items) ->
  dict_get "n" items = Some v ->
  py_int v = Ok n ->
  n < 0 \/ 100000 < n ->
  returned (compute py_round env g) =
    jsonify [("error"%string, PyStr "n must be between 0 and 100000")] 400 /\
  (forall t0 t1,
     returned (compute py_round (json_request (n_is (PyInt (-1))) t0 t1) g) =
       jsonify [("error"%string,
                 PyStr "n must be between 0 and 100000")] 400 /\
     returned (compute py_round
                 (json_request (n_is (PyInt 100001)) t0 t1) g) =
       jsonify [("error"%string,
                 PyStr "n must be between 0 and 100000")] 400 /\
     returned (compute py_round (json_request (n_is (PyInt 0)) t0 t1) g) =
       jsonify [("n"%string, PyInt 0);
                ("primes_count"%string, PyInt 0);
                ("latency_seconds"%string,
                 PyFloat (py_round (SFsub Float.prec Float.emax t1 t0) 4))]
               200 /\
     returned (compute py_round
                 (json_request (n_is (PyInt 100000)) t0 t1) g) =
       jsonify [("n"%string, PyInt 100000);
                ("primes_count"%string, PyInt (primes_upto 100000));
                ("latency_seconds"%string,
                 PyFloat (py_round (SFsub Float.prec Float.emax t1 t0) 4))]
               200).
Proof.
  intros Hjson Hget Hint Hn. split.
  - exact (f_equal returned
             (compute_rejects py_round env g items v n Hjson Hget Hint Hn)).
  - intros t0 t1.
    assert (Hlow : -1 < 0 \/ 100000 < -1) by (left; lia).
    assert (Hhigh : 100001 < 0 \/ 100000 < 100001) by (right; lia).
    assert (H0 : 0 <= 0 <= 100000) by lia.
    assert (Htop : 0 <= 100000 <= 100000) by lia.
    split; [|split; [|split]].
    + exact (f_equal returned
               (compute_rejects py_round
                  (json_request (n_is (PyInt (-1))) t0 t1) g
                  [("n"%string, PyInt (-1))] (PyInt (-1)) (-1)
                  eq_refl eq_refl eq_refl Hlow)).
    + exact (f_equal returned
               (compute_rejects py_round
                  (json_request (n_is (PyInt 100001)) t0 t1) g
                  [("n"%string, PyInt 100001)] (PyInt 100001) 100001
                  eq_refl eq_refl eq_refl Hhigh)).
    + exact (f_equal returned
               (compute_accepts py_round
                  (json_request (n_is (PyInt 0)) t0 t1) g
                  [("n"%string, PyInt 0)] (PyInt 0) 0
                  eq_refl eq_refl eq_refl H0)).
    + exact (f_equal returned
               (compute_accepts py_round
                  (json_request (n_is (PyInt 100000)) t0 t1) g
                  [("n"%string, PyInt 100000)] (PyInt 100000) 100000
                  eq_refl eq_refl eq_refl Htop)).
Qed.

Lemma compute_range_check_witness :
  (-3 < 0 \/ 100000 < -3) /\
  returned (compute (fun x _ => x)
              (json_request (n_is (PyStr "-3")) (S754_zero false)
                 (S754_zero false))
              {| is_ready := true; shutdown_in_progress := false |}) =
  jsonify [("error"%string, PyStr "n must be between 0 and 100000")] 400.
Proof.
  split; [left; lia|].
  refine (proj1 (compute_range_check (fun x _ => x)
                   (json_request (n_is (PyStr "-3")) (S754_zero false)
                      (S754_zero false))
                   {| is_ready := true; shutdown_in_progress := false |}
                   [("n"%string, PyStr "-3")] (PyStr "-3") (-3)
                   eq_refl eq_refl eq_refl _)).
  left; lia.
Defined.

(** C9: whatever the request and its outcome, and so for every 400 answer,
    [compute] leaves both flags as it found them; a 400 answer is moreover
    not logged. *)
Theorem compute_no_state_change
  (py_round : spec_float -> Z -> spec_float) (env : environ) (g : globals) :
  is_ready (globals_after (compute py_round env g)) = is_ready g /\
  shutdown_in_progress (globals_after (compute py_round env g)) =
    shutdown_in_progress g /\
  globals_after (compute py_round env g) = g.
Proof. rewrite compute_globals. auto. Qed.

(** C10: whenever [int] converts the field to an integer in range, the
    answer is 200 and echoes the converted integer with its prime count; the
    string "10" and the float 10.9 both convert to 10, and [true] to 1. *)
Theorem compute_coerces_field
  (py_round : spec_float -> Z -> spec_float) (env : environ) (g : globals)
  (items : list (string * pyval)) (v : pyval) (n : Z) :
  get_json env = Ok (PyDict items) ->
  dict_get "n" items = Some v ->
  py_int v = Ok n ->
  0 <= n <= 100000 ->
  returned (compute py_round env g) =
    jsonify [("n"%string, PyInt n);
             ("primes_count"%string, PyInt (primes_upto n));
             ("latency_seconds"%string,
              PyFloat (py_round (SFsub Float.prec Float.emax
                                   (time_after env) (time_before env)) 4))]
            200 /\
  py_int (PyStr "10") = Ok 10 /\
  py_int (PyFloat ten_point_nine) = Ok 10 /\
  py_int (PyBool true) = Ok 1.
Proof.
  intros Hjson Hget Hint Hn. split; [|repeat split].
  exact (f_equal returned
           (compute_accepts py_round env g items v n Hjson Hget Hint Hn)).
Qed.

Lemma compute_coerces_field_witness :
  0 <= 10 <= 100000 /\
  returned (compute (fun x _ => x)
              (json_request (n_is (PyFloat ten_point_nine))
                 (S754_zero false) (S754_zero false))
              {| is_ready := true; shutdown_in_progress := false |}) =
  jsonify [("n"%string, PyInt 10);
           ("primes_count"%string, PyInt (primes_upto 10));
           ("latency_seconds"%string,
            PyFloat (SFsub Float.prec Float.emax
                       (S754_zero false) (S754_zero false)))] 200.
Proof.
  split; [lia|].
  refine (proj1 (compute_coerces_field (fun x _ => x)
                   (json_request (n_is (PyFloat ten_point_nine))
                      (S754_zero false) (S754_zero false))
                   {| is_ready := true; shutdown_in_progress := false |}
                   [("n"%string, PyFloat ten_point_nine)]
                   (PyFloat ten_point_nine) 10
                   eq_refl eq_refl eq_refl _)).
  lia.
Defined.

(** [ten_point_nine] is what the decimal 10.9 rounds to: the binary64
    quotient of 109 by 10. *)
Lemma ten_point_nine_rounded :
  SFdiv Float.prec Float.emax
    (binary_normalize Float.prec Float.emax 109 0 false)
    (binary_normalize Float.prec Float.emax 10 0 false) = ten_point_nine.
Proof. vm_compute. reflexivity. Qed.

(** ** Claims about startup and shutdown *)

(** C7: in the initial state, with the main program still in its warm-up
    sleep and no signal delivered, [is_ready] is already true and [ready]
    answers 200 [{"status": "ready"}]; once startup is done [ready] answers
    200 as well. *)
Theorem ready_before_startup :
  main initial = WarmingUp /\
  is_ready (flags initial) = true /\
  shutdown_in_progress (flags initial) = false /\
  returned (ready (flags initial)) =
    jsonify [("status"%string, PyStr "ready")] 200 /\
  returned (ready (flags (finish_startup (elapse startup_delay initial)))) =
    jsonify [("status"%string, PyStr "ready")] 200.
Proof. repeat split. Qed.



(** ** Further properties of [count_primes] *)

Lemma range_from_NoDup (len : nat) (lo : Z) : NoDup (range_from len lo).
Proof.
  revert lo; induction len as [|len IH]; intros lo; cbn [range_from].
  - constructor.
  - constructor; [|apply IH]. rewrite range_from_In. lia.
Qed.

Lemma range_from_snoc (len : nat) (lo : Z) :
  range_from (S len) lo = range_from len lo ++ [lo + Z.of_nat len].
Proof.
  revert lo; induction len as [|len IH]; intros lo.
  - cbn. now rewrite Z.add_0_r.
  - change (range_from (S (S len)) lo)
      with (lo :: range_from (S len) (lo + 1)).
    rewrite IH. cbn [range_from app]. do 3 f_equal. lia.
Qed.

Lemma primes_upto_succ (n : Z) :
  1 <= n ->
  primes_upto (n + 1) =
  primes_upto n + (if trial_division_prime (n + 1) then 1 else 0).
Proof.
  intros Hn. unfold primes_upto, range.
  replace (Z.to_nat (n + 1 + 1 - 2)) with (S (Z.to_nat (n + 1 - 2))) by lia.
  rewrite range_from_snoc, filter_app, length_app.
  replace (2 + Z.of_nat (Z.to_nat (n + 1 - 2))) with (n + 1) by lia.
  cbn [filter]. destruct (trial_division_prime (n + 1)); cbn [List.length]; lia.
Qed.

Lemma primes_upto_below_2 (n : Z) : n < 2 -> primes_upto n = 0.
Proof.
  intros Hn. unfold primes_upto, range.
  replace (Z.to_nat (n + 1 - 2)) with O by lia. reflexivity.
Qed.

Lemma primes_upto_bounds (n : Z) : 0 <= primes_upto n <= Z.max 0 (n - 1).
Proof.
  unfold primes_upto, range. split; [lia|].
  pose proof (filter_length_le trial_division_prime
                (range_from (Z.to_nat (n + 1 - 2)) 2)) as H.
  rewrite range_from_length in H. lia.
Qed.

Lemma primes_upto_monotone (n m : Z) :
  n <= m -> primes_upto n <= primes_upto m.
Proof.
  intros Hnm. destruct (Z_lt_le_dec n 2) as [Hlow|Hhigh].
  - rewrite (primes_upto_below_2 n Hlow). apply primes_upto_bounds.
  - replace m with (n + Z.of_nat (Z.to_nat (m - n))) by lia.
    induction (Z.to_nat (m - n)) as [|k IH].
    + rewrite Z.add_0_r. lia.
    + replace (n + Z.of_nat (S k)) with (n + Z.of_nat k + 1) by lia.
      rewrite primes_upto_succ by lia.
      destruct (trial_division_prime (n + Z.of_nat k + 1)); lia.
Qed.

(** X1: for n in [0, 100000] the value of [count_primes n] is the number of
    primes up to n: it is the length of a duplicate-free list holding
    exactly the primes p with 2 <= p <= n. *)
Theorem count_primes_cardinality (n : Z) :
  0 <= n <= 100000 ->
  exists primes : list Z,
    NoDup primes /\
    (forall p, In p primes <-> 2 <= p <= n /\ Z.prime p) /\
    count_primes n = Ok (Z.of_nat (List.length primes)).
Proof.
  intros Hn.
  exists (filter trial_division_prime (range 2 (n + 1))).
  split; [|split].
  - apply NoDup_filter, range_from_NoDup.
  - intros p. rewrite filter_In, range_In. split.
    + intros [Hin Htd]. split; [lia|].
      apply trial_division_prime_iff; [lia|assumption].
    + intros [Hp Hprime]. split; [lia|].
      apply trial_division_prime_iff; [lia|assumption].
  - exact (count_primes_primes_upto n Hn).
Qed.

Lemma count_primes_cardinality_witness :
  0 <= 30 <= 100000 /\
  exists primes : list Z,
    NoDup primes /\
    (forall p, In p primes <-> 2 <= p <= 30 /\ Z.prime p) /\
    count_primes 30 = Ok (Z.of_nat (List.length primes)).
Proof. split; [lia | apply (count_primes_cardinality 30); lia]. Defined.

(** X2: for n in [0, 100000), going from n to n + 1 raises the count by one
    when n + 1 is prime and leaves it as it is otherwise. *)
Theorem count_primes_next (n : Z) :
  0 <= n < 100000 ->
  exists c,
    count_primes n = Ok c /\
    (Z.prime (n + 1) -> count_primes (n + 1) = Ok (c + 1)) /\
    (~ Z.prime (n + 1) -> count_primes (n + 1) = Ok c).
Proof.
  intros Hn. exists (primes_upto n).
  rewrite !count_primes_primes_upto by lia.
  split; [reflexivity|].
  destruct (Z.eq_dec n 0) as [->|Hn0].
  - split; [intros Hp; exfalso; exact (Z.not_prime_1 Hp)|reflexivity].
  - rewrite primes_upto_succ by lia.
    pose proof (trial_division_prime_iff (n + 1) ltac:(lia)) as Hiff.
    destruct (trial_division_prime (n + 1)).
    + split; [reflexivity|]. intros Hnp. exfalso. apply Hnp, Hiff. reflexivity.
    + split; [|intros _; f_equal; lia].
      intros Hp. apply Hiff in Hp. discriminate.
Qed.

Lemma count_primes_next_witness :
  0 <= 6 < 100000 /\
  exists c,
    count_primes 6 = Ok c /\
    (Z.prime (6 + 1) -> count_primes (6 + 1) = Ok (c + 1)) /\
    (~ Z.prime (6 + 1) -> count_primes (6 + 1) = Ok c).
Proof. split; [lia | apply (count_primes_next 6); lia]. Defined.

(** X3: on [0, 100000] the count never decreases as n grows, is never
    negative and never exceeds n - 1 (0 for n below 1). *)
Theorem count_primes_monotone (n m : Z) :
  0 <= n <= m -> m <= 100000 ->
  exists a b,
    count_primes n = Ok a /\ count_primes m = Ok b /\
    0 <= a <= b /\ b <= Z.max 0 (m - 1).
Proof.
  intros Hnm Hm. exists (primes_upto n), (primes_upto m).
  rewrite !count_primes_primes_upto by lia.
  pose proof (primes_upto_monotone n m ltac:(lia)).
  pose proof (primes_upto_bounds n). pose proof (primes_upto_bounds m).
  repeat split; lia.
Qed.

Lemma count_primes_monotone_witness :
  (0 <= 10 <= 20 /\ 20 <= 100000) /\
  exists a b,
    count_primes 10 = Ok a /\ count_primes 20 = Ok b /\
    0 <= a <= b /\ b <= Z.max 0 (20 - 1).
Proof. split; [lia | apply (count_primes_monotone 10 20); lia]. Defined.

(** ** Further properties of [compute] *)

Section ComputeAnswers.

Variable py_round : spec_float -> Z -> spec_float.

(** Walks the [try] block of [compute] branch by branch. *)
Ltac compute_cases env :=
  unfold compute, compute_try;
  destruct (get_json env) as [?data|?e] eqn:?Hjson; cbn [bind];
  [ destruct (py_truthy data) eqn:?Htruthy; cbn [negb bind];
    [ destruct (py_contains "n" data) as [[|]|?e] eqn:?Hcontains;
      cbn [negb bind];
      [ destruct (py_getitem data "n") as [?v|?e] eqn:?Hitem; cbn [bind];
        [ destruct (py_int v) as [?n|?e] eqn:?Hint; cbn [bind];
          [ destruct ((n <? 0) || (n >? 100000)) eqn:?Hrange;
            [ | rewrite (count_primes_primes_upto n) by lia; cbn [bind] ]
          | ]
        | ]
      | | ]
    | ]
  | ];
  try match goal with e : exn |- _ => destruct e end;
  cbn [returned logged globals_after status body jsonify ret log then_ app].

(** [compute] logs at most one line. *)
Lemma compute_logged_length (env : environ) (g : globals) :
  (List.length (logged (compute py_round env g)) <= 1)%nat.
Proof. compute_cases env; cbn [List.length]; lia. Qed.

(** X4: every answer of [compute] is a 200, a 400 or a 500; a 200 logs
    exactly one line, that of the computation; a 400 logs nothing; a 500
    logs exactly one error line, for an exception other than [ValueError]. *)
Theorem compute_answer_and_log (env : environ) (g : globals) :
  (status (returned (compute py_round env g)) = 200 /\
   exists n c latency,
     logged (compute py_round env g) = [InfoComputed n c latency]) \/
  (status (returned (compute py_round env g)) = 400 /\
   logged (compute py_round env g) = []) \/
  (status (returned (compute py_round env g)) = 500 /\
   exists e, e <> ValueError /\
             logged (compute py_round env g) = [Error e]).
Proof.
  compute_cases env;
    solve [ left; split; [reflexivity|]; do 3 eexists; reflexivity
          | right; left; split; reflexivity
          | right; right; split; [reflexivity|];
            eexists; split; [|reflexivity]; discriminate ].
Qed.

(** X5: a 200 answer is sound: the body decoded to a value that has the
    field, the field converted to an n with 0 <= n <= 100000, and the answer
    carries that n with the number of primes up to n, which is also what the
    log line records. *)
Theorem compute_ok_sound (env : environ) (g : globals) :
  status (returned (compute py_round env g)) = 200 ->
  exists data v n,
    get_json env = Ok data /\
    py_getitem data "n" = Ok v /\
    py_int v = Ok n /\
    0 <= n <= 100000 /\
    compute py_round env g =
    {| returned :=
         jsonify [("n"%string, PyInt n);
                  ("primes_count"%string, PyInt (primes_upto n));
                  ("latency_seconds"%string,
                   PyFloat (py_round (SFsub Float.prec Float.emax
                                        (time_after env) (time_before env))
                                     4))] 200;
       globals_after := g;
       logged := [InfoComputed n (primes_upto n)
                    (SFsub Float.prec Float.emax
                       (time_after env) (time_before env))] |}.
Proof.
  revert g. compute_cases env; intros g H; try discriminate H.
  exists data, v, n. repeat split; try assumption; try lia.
Qed.

(** X6: a 500 answer never comes from the counting: it is always an
    exception other than [ValueError] raised by [request.get_json()], by the
    membership test, by the subscript or by [int]. *)
Theorem compute_fault_origin (env : environ) (g : globals) :
  status (returned (compute py_round env g)) = 500 ->
  exists e,
    e <> ValueError /\
    logged (compute py_round env g) = [Error e] /\
    (get_json env = Raise e \/
     exists data,
       get_json env = Ok data /\ py_truthy data = true /\
       (py_contains "n" data = Raise e \/
        py_contains "n" data = Ok true /\
        (py_getitem data "n" = Raise e \/
         exists v, py_getitem data "n" = Ok v /\ py_int v = Raise e))).
Proof.
  revert g. compute_cases env; intros g H; try discriminate H;
    (eexists; refine (conj _ (conj eq_refl _)); [discriminate|]);
    solve [ left; reflexivity
          | right; eexists; split; [reflexivity|]; split; [assumption|];
            solve [ left; assumption
                  | right; split; [assumption|]; left; assumption
                  | right; split; [assumption|]; right; eexists;
                    split; eassumption ] ].
Qed.

(** X7: a body that decodes to anything but an object never succeeds: it is
    answered 400 "missing 'n' parameter" when it is false or does not
    contain "n", and 500 otherwise, because it cannot be subscripted. *)
Theorem compute_non_object_body (env : environ) (g : globals) (data : pyval) :
  get_json env = Ok data ->
  (forall items, data <> PyDict items) ->
  returned (compute py_round env g) =
  if negb (py_truthy data) then
    jsonify [("error"%string, PyStr "missing 'n' parameter")] 400
  else
    match py_contains "n" data with
    | Ok false => jsonify [("error"%string, PyStr "missing 'n' parameter")] 400
    | _ => jsonify [("error"%string, PyStr "internal server error")] 500
    end.
Proof.
  intros Hjson Hnot. unfold compute, compute_try. rewrite Hjson. cbn [bind].
  destruct data as [|b|z|f|s|l|items];
    try (exfalso; exact (Hnot items eq_refl));
    cbn [py_truthy py_contains py_getitem negb bind].
  - reflexivity.
  - destruct b; reflexivity.
  - destruct (z =? 0); reflexivity.
  - destruct (Float.truthy f); reflexivity.
  - destruct (String.eqb s ""); cbn [negb bind]; [reflexivity|].
    destruct (index 0 "n" s); reflexivity.
  - destruct l as [|x l]; [reflexivity|]. cbn [negb bind].
    destruct (existsb (str_equals "n") (x :: l)); reflexivity.
Qed.

End ComputeAnswers.

Lemma compute_ok_sound_witness :
  exists data v n,
    get_json (json_request (n_is (PyStr " 7 ")) (S754_zero false)
                (S754_zero false)) = Ok data /\
    py_getitem data "n" = Ok v /\
    py_int v = Ok n /\
    0 <= n <= 100000.
Proof.
  destruct (compute_ok_sound (fun x _ => x)
              (json_request (n_is (PyStr " 7 ")) (S754_zero false)
                 (S754_zero false))
              {| is_ready := true; shutdown_in_progress := false |}
              eq_refl) as (data & v & n & H1 & H2 & H3 & H4 & _).
  exists data, v, n. auto.
Defined.

Lemma compute_fault_origin_witness :
  exists e,
    e <> ValueError /\
    logged (compute (fun x _ => x)
              (json_request (PyStr "n") (S754_zero false) (S754_zero false))
              {| is_ready := true; shutdown_in_progress := false |}) =
    [Error e].
Proof.
  destruct (compute_fault_origin (fun x _ => x)
              (json_request (PyStr "n") (S754_zero false) (S754_zero false))
              {| is_ready := true; shutdown_in_progress := false |}
              eq_refl) as (e & H1 & H2 & _).
  exists e. auto.
Defined.

Lemma compute_non_object_body_witness :
  returned (compute (fun x _ => x)
              (json_request (PyList [PyInt 1; PyStr "n"]) (S754_zero false)
                 (S754_zero false))
              {| is_ready := true; shutdown_in_progress := false |}) =
  jsonify [("error"%string, PyStr "internal server error")] 500.
Proof.
  refine (compute_non_object_body (fun x _ => x)
            (json_request (PyList [PyInt 1; PyStr "n"]) (S754_zero false)
               (S754_zero false))
            {| is_ready := true; shutdown_in_progress := false |}
            (PyList [PyInt 1; PyStr "n"]) eq_refl _).
  intros items H. discriminate H.
Defined.

(** ** Properties of [version] and of the port lookup *)

Lemma py_int_of_str_raises (s : string) (e : exn) :
  py_int_of_str s = Raise e -> e = ValueError.
Proof.
  unfold py_int_of_str.
  repeat match goal with
         | |- context [match ?x with _ => _ end] => destruct x
         end;
    congruence.
Qed.

(** X8: [version] answers 200 in every state, also while shutting down,
    without touching the flags or logging; the version it reports is the
    value of APP_VERSION whenever the variable is set, even to the empty
    string, and "unknown" only when it is not set. *)
Theorem version_contract (vars : os_environ) (g : globals) :
  status (returned (version vars g)) = 200 /\
  globals_after (version vars g) = g /\
  logged (version vars g) = [] /\
  (forall value,
     find (fun kv => String.eqb (fst kv) "APP_VERSION") vars =
       Some ("APP_VERSION"%string, value) ->
     body (returned (version vars g)) =
       PyDict [("version"%string, PyStr value)]) /\
  ((forall value, ~ In ("APP_VERSION"%string, value) vars) ->
   body (returned (version vars g)) =
     PyDict [("version"%string, PyStr "unknown")]).
Proof.
  unfold version, os_getenv, ret. cbn.
  repeat split.
  - intros value H. rewrite H. reflexivity.
  - intros Hunset.
    destruct (find (fun kv => String.eqb (fst kv) "APP_VERSION") vars)
      as [[k v]|] eqn:E; [exfalso|reflexivity].
    apply find_some in E. destruct E as [Hin Hk]. cbn in Hk.
    apply String.eqb_eq in Hk. subst k. exact (Hunset v Hin).
Qed.

(** X9: the port is 8080 when PORT is not set; when the lookup fails, PORT
    is set and the failure is a [ValueError] from [int], never another
    exception. *)
Theorem main_port_failure (vars : os_environ) :
  ((forall value, ~ In ("PORT"%string, value) vars) ->
   main_port vars = Ok 8080) /\
  (forall e, main_port vars = Raise e ->
     e = ValueError /\
     exists value, In ("PORT"%string, value) vars /\
                   py_int_of_str value = Raise ValueError).
Proof.
  unfold main_port, os_getenv.
  destruct (find (fun kv => String.eqb (fst kv) "PORT") vars)
    as [[k v]|] eqn:E.
  - apply find_some in E. destruct E as [Hin Hk]. cbn in Hk.
    apply String.eqb_eq in Hk. subst k. cbn [snd py_int]. split.
    + intros Hunset. exfalso. exact (Hunset v Hin).
    + intros e He. pose proof (py_int_of_str_raises v e He). subst e.
      split; [reflexivity|]. exists v. split; assumption.
  - split; [reflexivity|]. intros e He. discriminate He.
Qed.

(** ** Further properties of the process *)

Section ProcessRuns.

Variable py_round : spec_float -> Z -> spec_float.
Variable vars : os_environ.
Variable listens : Z -> bool.

Ltac step_inv H :=
  unfold step, start_server in H;
  repeat match type of H with
         | context [match ?x with _ => _ end] => destruct x eqn:?
         end;
  try discriminate; injection H as <-.

Lemma serves_after_warmup_step (p p' : process) (e : event) :
  serves_after_warmup p -> step py_round vars listens p e = Some p' ->
  serves_after_warmup p'.
Proof.
  unfold serves_after_warmup. intros Hp H.
  destruct e as [dt| |s| |r]; step_inv H; try destruct s; cbn in *;
    intros; try lia; try (specialize (Hp ltac:(congruence)); lia).
Qed.

Lemma serves_after_warmup_run (evs : list event) (p p' : process) :
  serves_after_warmup p -> run py_round vars listens p evs = Some p' ->
  serves_after_warmup p'.
Proof.
  revert p; induction evs as [|e evs IH]; intros p Hp H; cbn in H.
  - now injection H as <-.
  - destruct (step py_round vars listens p e) as [q|] eqn:E; [|discriminate].
    eauto using serves_after_warmup_step.
Qed.

(** A step that leaves the process exited is the end of a handler's sleep,
    or a startup that fails on the port lookup or in [app.run]. *)
Lemma step_exit_cases (p p' : process) (e : event) (c : Z) :
  step py_round vars listens p e = Some p' -> exit_code p' = Some c ->
  (e = ShutdownDone /\ c = 0) \/
  (e = StartupDone /\ c = startup_failure_status /\
   ((exists x, main_port vars = Raise x) \/
    (exists port, main_port vars = Ok port /\ listens port = false))).
Proof.
  intros H Hc. unfold step in H.
  destruct (exit_code p) as [c0|] eqn:Hexit; [discriminate|].
  destruct e as [dt| |s| |r].
  - destruct (0 <=? dt); [|discriminate]. injection H as <-.
    cbn in Hc. congruence.
  - destruct (main p); [|discriminate].
    destruct (shutdowns p); [|discriminate].
    destruct (startup_delay <=? now p); [|discriminate]. injection H as <-.
    unfold start_server in Hc.
    destruct (main_port vars) as [port|x] eqn:Hport.
    + destruct (listens port) eqn:Hlistens; cbn in Hc; [congruence|].
      injection Hc as <-. right. repeat split. right. exists port. auto.
    + cbn in Hc. injection Hc as <-. right. repeat split. left. exists x.
      reflexivity.
  - injection H as <-. destruct s; cbn in Hc; congruence.
  - destruct (shutdowns p); [discriminate|].
    destruct (_ <=? _); [|discriminate]. injection H as <-.
    cbn in Hc. injection Hc as <-. left. split; reflexivity.
  - destruct (main p); [discriminate|]. injection H as <-.
    cbn in Hc. congruence.
Qed.

(** While a handler sleeps during warm-up, the main program stays there. *)
Lemma warmup_interrupted_step (p p' : process) (e : event) :
  main p = WarmingUp -> shutdowns p <> [] ->
  step py_round vars listens p e = Some p' ->
  main p' = WarmingUp /\ shutdowns p' <> [] /\
  e <> StartupDone /\ (forall r, e <> Serve r).
Proof.
  intros Hm Hs H.
  destruct e as [dt| |s| |r]; step_inv H; try destruct s; cbn;
    repeat split; try congruence; try discriminate.
Qed.

(** X10: in every state the process reaches, the two probes agree and
    follow the signals alone: once a SIGINT or SIGTERM has been delivered
    both answer 503, and as long as none has, both answer 200. *)
Theorem probes_follow_signal (evs : list event) (p : process) :
  run py_round vars listens initial evs = Some p ->
  (existsb is_deliver evs = true ->
   returned (health (flags p)) =
     jsonify [("status"%string, PyStr "shutting down")] 503 /\
   returned (ready (flags p)) =
     jsonify [("status"%string, PyStr "not ready")] 503) /\
  (existsb is_deliver evs = false ->
   returned (health (flags p)) =
     jsonify [("status"%string, PyStr "healthy")] 200 /\
   returned (ready (flags p)) =
     jsonify [("status"%string, PyStr "ready")] 200).
Proof.
  intros Hrun.
  pose proof (run_shutdown_flag py_round vars listens evs initial p Hrun) as Hflag.
  pose proof (run_is_ready py_round vars listens evs initial p Hrun eq_refl) as Hready.
  cbn in Hflag. unfold health, ready, then_, read_globals. cbn.
  rewrite Hflag, Hready.
  split; intros ->; split; reflexivity.
Qed.

(** X11: a request is only ever served by a process that has finished its
    startup, is running [app.run], has not exited and is at least
    [startup_delay] = 2 seconds old. *)
Theorem no_request_before_startup
  (pre post : list event) (r : http_request) (p : process) :
  run py_round vars listens initial (pre ++ Serve r :: post) = Some p ->
  exists q,
    run py_round vars listens initial pre = Some q /\
    main q = Serving /\ exit_code q = None /\ 2 <= now q /\
    In StartupDone pre.
Proof.
  intros Hrun. rewrite run_app in Hrun.
  destruct (run py_round vars listens initial pre) as [q|] eqn:Hpre; [|discriminate].
  cbn [run] in Hrun.
  destruct (step py_round vars listens q (Serve r)) as [q'|] eqn:Hstep; [|discriminate].
  assert (Hx : exit_code q = None /\ main q = Serving).
  { unfold step in Hstep. destruct (exit_code q); [discriminate|].
    destruct (main q); [discriminate|]. auto. }
  destruct Hx as [Hx Hm].
  exists q. repeat split; try assumption.
  - apply (serves_after_warmup_run pre initial q); [|assumption|assumption].
    intros H. discriminate H.
  - clear Hrun Hstep Hx post p q' r.
    assert (G : forall evs p0 q0,
               run py_round vars listens p0 evs = Some q0 -> main q0 = Serving ->
               main p0 = Serving \/ In StartupDone evs).
    { induction evs as [|e evs IH]; intros p0 q0 H Hq; cbn in H.
      - injection H as <-. auto.
      - destruct (step py_round vars listens p0 e) as [p1|] eqn:E; [|discriminate].
        destruct (IH p1 q0 H Hq) as [H1|H1]; [|right; right; exact H1].
        destruct e as [dt| |s| |r]; step_inv E; try destruct s; cbn in H1;
          solve [ left; congruence | right; left; reflexivity ]. }
    destruct (G pre initial q Hpre Hm) as [H|H]; [discriminate H|exact H].
Qed.

(** X12: a signal delivered while the main program is still warming up
    keeps it there: whatever follows, startup never completes and no request
    is served. *)
Theorem signal_during_warmup
  (q p : process) (s : signal) (post : list event) :
  main q = WarmingUp ->
  run py_round vars listens q (Deliver s :: post) = Some p ->
  main p = WarmingUp /\
  shutdown_in_progress (flags p) = true /\
  forall e, In e post -> e <> StartupDone /\ forall r, e <> Serve r.
Proof.
  intros Hm Hrun. cbn [run] in Hrun.
  destruct (step py_round vars listens q (Deliver s)) as [q1|] eqn:E; [|discriminate].
  assert (H1 : main q1 = WarmingUp /\ shutdowns q1 <> [] /\
               shutdown_in_progress (flags q1) = true).
  { step_inv E. destruct s; cbn; repeat split; congruence. }
  destruct H1 as (Hm1 & Hs1 & Hf1). clear E Hm q.
  revert q1 Hm1 Hs1 Hf1 Hrun.
  induction post as [|e post IH]; intros q1 Hm1 Hs1 Hf1 Hrun; cbn in Hrun.
  - injection Hrun as <-. repeat split; try assumption; contradiction.
  - destruct (step py_round vars listens q1 e) as [q2|] eqn:E; [|discriminate].
    destruct (warmup_interrupted_step q1 q2 e Hm1 Hs1 E)
      as (Hm2 & Hs2 & Hne1 & Hne2).
    assert (Hf2 : shutdown_in_progress (flags q2) = true)
      by (rewrite (step_shutdown_flag py_round vars listens q1 q2 e E), Hf1; reflexivity).
    destruct (IH q2 Hm2 Hs2 Hf2 Hrun) as (Hmp & Hfp & Hall).
    repeat split; try assumption; destruct H as [<-|Hin];
      solve [ assumption | apply Hne2 | apply (Hall _ Hin) ].
Qed.

(** X13: an exited process stops for good, and it has exited in one of two
    ways.  Either through the signal handler: the last event is the end of
    the handler's sleep, a signal was delivered before it, the flag is up
    and the exit code is 0.  Or through a failed startup: the last event is
    the end of the warm-up, no signal was delivered, the flag is down, the
    exit code is 1, and the port lookup raised or the server could not
    listen on the port. *)
Theorem exit_is_final (evs : list event) (p : process) (c : Z) :
  run py_round vars listens initial evs = Some p ->
  exit_code p = Some c ->
  (forall e, step py_round vars listens p e = None) /\
  ((c = 0 /\ shutdown_in_progress (flags p) = true /\
    exists pre, evs = pre ++ [ShutdownDone] /\
                existsb is_deliver pre = true) \/
   (c = 1 /\ shutdown_in_progress (flags p) = false /\
    existsb is_deliver evs = false /\
    (exists pre, evs = pre ++ [StartupDone]) /\
    ((exists x, main_port vars = Raise x) \/
     (exists port, main_port vars = Ok port /\ listens port = false)))).
Proof.
  intros Hrun Hc.
  pose proof (run_shutdown_flag py_round vars listens evs initial p Hrun)
    as Hflag.
  pose proof (proj2 (exits_cleanly_run py_round vars listens evs initial p
                       exits_cleanly_initial Hrun) c Hc) as Hexit.
  cbn in Hflag. split.
  - intros e. unfold step. rewrite Hc. reflexivity.
  - destruct evs as [|e0 evs0] using rev_ind.
    + cbn in Hrun. injection Hrun as <-. discriminate Hc.
    + clear IHevs0. rewrite run_app in Hrun.
      destruct (run py_round vars listens initial evs0) as [q|] eqn:Hpre;
        [|discriminate].
      cbn [run] in Hrun.
      destruct (step py_round vars listens q e0) as [q'|] eqn:E;
        [|discriminate].
      injection Hrun as ->.
      pose proof (run_shutdown_flag py_round vars listens evs0 initial q Hpre)
        as Hq.
      cbn in Hq.
      pose proof (step_shutdown_flag py_round vars listens q p e0 E) as Hstep.
      destruct (step_exit_cases q p e0 c E Hc)
        as [[-> ->]|(-> & -> & Hcause)]; cbn in Hstep;
        rewrite orb_false_r in Hstep.
      * left. split; [reflexivity|].
        destruct Hexit as [[Hbad _]|(_ & Hup & _)]; [discriminate Hbad|].
        split; [exact Hup|]. exists evs0. split; [reflexivity|].
        rewrite <- Hq, <- Hstep. exact Hup.
      * right. split; [reflexivity|].
        destruct Hexit as [[_ Hdown]|(Hbad & _)]; [|discriminate Hbad].
        split; [exact Hdown|]. split; [rewrite <- Hflag; exact Hdown|].
        split; [exists evs0; reflexivity|exact Hcause].
Qed.

(** X14: serving a request changes nothing of the process but its journal:
    flags, phase, clock, sleeping handlers and exit code stay as they were;
    the journal gains at most one line, and none for the two probes. *)
Theorem serve_changes_only_journal
  (p p' : process) (r : http_request) :
  step py_round vars listens p (Serve r) = Some p' ->
  flags p' = flags p /\ main p' = main p /\ now p' = now p /\
  shutdowns p' = shutdowns p /\ exit_code p' = exit_code p /\
  exists lines,
    journal p' = journal p ++ lines /\
    (List.length lines <= 1)%nat /\
    (r = GetHealthz \/ r = GetReadyz -> lines = []).
Proof.
  intros H. step_inv H. unfold serve. cbn.
  rewrite dispatch_globals. do 5 (split; [congruence|]).
  exists (logged (dispatch py_round r (flags p))).
  split; [reflexivity|]. split.
  - destruct r as [| |env]; cbn [dispatch].
    + unfold health, then_, read_globals; cbn.
      destruct (shutdown_in_progress (flags p)); cbn; lia.
    + unfold ready, then_, read_globals; cbn.
      destruct (negb (is_ready (flags p)) || shutdown_in_progress (flags p));
        cbn; lia.
    + apply compute_logged_length.
  - intros [->| ->]; cbn [dispatch].
    + unfold health, then_, read_globals; cbn.
      destruct (shutdown_in_progress (flags p)); reflexivity.
    + unfold ready, then_, read_globals; cbn.
      destruct (negb (is_ready (flags p)) || shutdown_in_progress (flags p));
        reflexivity.
Qed.

End ProcessRuns.

Lemma probes_follow_signal_witness :
  exists p,
    run (fun x _ => x) [] (fun _ => true) initial
      [Elapse 3; StartupDone; Deliver SIGINT; Serve GetReadyz] = Some p /\
    returned (health (flags p)) =
      jsonify [("status"%string, PyStr "shutting down")] 503 /\
    returned (ready (flags p)) =
      jsonify [("status"%string, PyStr "not ready")] 503.
Proof.
  eexists. split; [reflexivity|].
  exact (proj1 (probes_follow_signal (fun x _ => x) [] (fun _ => true)
                  [Elapse 3; StartupDone; Deliver SIGINT; Serve GetReadyz]
                  _ eq_refl) eq_refl).
Defined.

Lemma no_request_before_startup_witness :
  exists q,
    run (fun x _ => x) [] (fun _ => true) initial [Elapse 2; StartupDone] =
      Some q /\
    main q = Serving /\ exit_code q = None /\ 2 <= now q /\
    In StartupDone [Elapse 2; StartupDone].
Proof.
  exact (no_request_before_startup (fun x _ => x) [] (fun _ => true)
           [Elapse 2; StartupDone] [Elapse 1] GetHealthz
           (elapse 1 (serve (fun x _ => x) GetHealthz
                        (enter_app_run (finish_startup (elapse 2 initial)))))
           eq_refl).
Defined.

Lemma signal_during_warmup_witness :
  main (elapse 1 (graceful_shutdown_enter initial)) = WarmingUp /\
  shutdown_in_progress (flags (elapse 1 (graceful_shutdown_enter initial))) =
    true.
Proof.
  destruct (signal_during_warmup (fun x _ => x) [] (fun _ => true) initial
              (elapse 1 (graceful_shutdown_enter initial))
              SIGTERM [Elapse 1] eq_refl eq_refl) as (H1 & H2 & _).
  split; assumption.
Defined.

Lemma exit_is_final_witness :
  exists p,
    run (fun x _ => x) [("PORT", "abc")]%string (fun _ => true) initial
      [Elapse 2; StartupDone] = Some p /\
    exit_code p = Some 1 /\
    forall e,
      step (fun x _ => x) [("PORT", "abc")]%string (fun _ => true) p e = None.
Proof.
  eexists. split; [reflexivity|]. split; [reflexivity|].
  exact (proj1 (exit_is_final (fun x _ => x) [("PORT", "abc")]%string
                  (fun _ => true) [Elapse 2; StartupDone] _ 1
                  eq_refl eq_refl)).
Defined.

Lemma serve_changes_only_journal_witness :
  flags (serve (fun x _ => x) GetReadyz
           (enter_app_run (finish_startup (elapse 2 initial)))) =
    flags (enter_app_run (finish_startup (elapse 2 initial))) /\
  journal (serve (fun x _ => x) GetReadyz
             (enter_app_run (finish_startup (elapse 2 initial)))) =
    journal (enter_app_run (finish_startup (elapse 2 initial))).
Proof.
  destruct (serve_changes_only_journal (fun x _ => x) [] (fun _ => true)
              (enter_app_run (finish_startup (elapse 2 initial)))
              (serve (fun x _ => x) GetReadyz
                 (enter_app_run (finish_startup (elapse 2 initial))))
              GetReadyz eq_refl)
    as (H1 & _ & _ & _ & _ & lines & H2 & _ & H3).
  split; [exact H1|].
  rewrite H2, (H3 (or_intror eq_refl)). apply app_nil_r.
Defined.

(** ** Decimal numerals and [int] *)

Lemma digit_cases (d : Z) :
  0 <= d <= 9 ->
  d = 0 \/ d = 1 \/ d = 2 \/ d = 3 \/ d = 4 \/
  d = 5 \/ d = 6 \/ d = 7 \/ d = 8 \/ d = 9.
Proof. lia. Qed.

Lemma scan_digit_char (d : Z) (rest : string) (a k : Z) :
  0 <= d <= 9 ->
  scan_digits (String (digit_char d) rest) false a k =
  scan_digits rest false (a * 10 + d) (k + 1).
Proof.
  intros Hd.
  destruct (digit_cases d Hd) as [->|[->|[->|[->|[->|[->|[->|[->|[->| ->]]]]]]]]];
    reflexivity.
Qed.

(** Scanning the digits of [z] reads [z] and counts its digits. *)
Lemma scan_decimal_digits (fuel : nat) :
  forall (z : Z) (rest : string),
    (0 < fuel)%nat ->
    0 <= z < 10 ^ Z.of_nat fuel ->
    exists k d tail,
      1 <= k /\ (k = 1 \/ 10 ^ (k - 1) <= z) /\
      0 <= d <= 9 /\
      decimal_digits fuel z rest = String (digit_char d) tail /\
      forall a n,
        scan_digits (decimal_digits fuel z rest) false a n =
        scan_digits rest false (a * 10 ^ k + z) (n + k).
Proof.
  induction fuel as [|fuel IH]; intros z rest Hfuel Hz.
  - exfalso. lia.
  - cbn [decimal_digits]. destruct (z <? 10) eqn:Hlt.
    + apply Z.ltb_lt in Hlt. rewrite Z.mod_small by lia.
      exists 1, z, rest. repeat split; try lia.
      intros a n. rewrite scan_digit_char by lia. reflexivity.
    + apply Z.ltb_ge in Hlt.
      assert (Hmod : 0 <= z mod 10 <= 9)
        by (pose proof (Z.mod_pos_bound z 10); lia).
      assert (Hdiv : 0 <= z / 10 < 10 ^ Z.of_nat fuel).
      { split; [apply Z.div_pos; lia|].
        apply Z.div_lt_upper_bound; [lia|].
        rewrite Nat2Z.inj_succ, Z.pow_succ_r in Hz by lia. lia. }
      assert (Hfuel' : (0 < fuel)%nat).
      { destruct fuel; [|lia]. exfalso.
        assert (1 <= z / 10) by (apply Z.div_le_lower_bound; lia).
        change (10 ^ Z.of_nat 0) with 1 in Hdiv. lia. }
      destruct (IH (z / 10) (String (digit_char (z mod 10)) rest)
                  Hfuel' Hdiv)
        as (k & d & tail & Hk & Hlow & Hd & Hhead & Hscan).
      exists (k + 1), d, tail. repeat split; try lia.
      * right. replace (k + 1 - 1) with k by lia.
        assert (Hz10 : 10 * (z / 10) <= z)
          by (apply Z.mul_div_le; lia).
        destruct Hlow as [->|Hlow].
        -- change (10 ^ 1) with 10. lia.
        -- replace k with (Z.succ (k - 1)) by lia.
           rewrite Z.pow_succ_r by lia. lia.
      * exact Hhead.
      * intros a n. rewrite Hscan, scan_digit_char by lia.
        rewrite Z.pow_add_r by lia. change (10 ^ 1) with 10.
        f_equal; [|lia].
        pose proof (Z.div_mod z 10 ltac:(lia)). lia.
Qed.

Lemma decimal_fuel (z : Z) :
  0 <= z -> z < 10 ^ Z.of_nat (S (Z.to_nat (Z.log2 z))).
Proof.
  intros Hz. rewrite Nat2Z.inj_succ, Z2Nat.id by apply Z.log2_nonneg.
  destruct (Z.eq_dec z 0) as [->|Hne].
  - cbn. lia.
  - pose proof (Z.log2_spec z ltac:(lia)) as [_ Hup].
    eapply Z.lt_le_trans; [exact Hup|].
    apply Z.pow_le_mono_l. pose proof (Z.log2_nonneg z). lia.
Qed.

(** A numeral that stays below 10 ^ 4300 has at most 4300 digits. *)
Lemma digits_within_limit (k z : Z) :
  1 <= k -> k = 1 \/ 10 ^ (k - 1) <= z -> z < 10 ^ 4300 -> k <= 4300.
Proof.
  intros Hk Hlow Hz.
  destruct (Z_le_gt_dec k 4300) as [Hle|Hgt]; [assumption|exfalso].
  destruct Hlow as [->|Hlow]; [clear Hz; lia|].
  assert (H : 10 ^ 4300 <= 10 ^ (k - 1))
    by (clear Hz Hlow; apply Z.pow_le_mono_r; lia).
  exact (Z.lt_irrefl _
           (Z.le_lt_trans _ _ _ (Z.le_trans _ _ _ H Hlow) Hz)).
Qed.

(** [int] reads the numeral of a non-negative number back, whatever the
    sign in front of it was. *)
Lemma int_of_digits (z : Z) :
  0 <= z -> z < 10 ^ 4300 ->
  py_int_of_str (decimal_digits (S (Z.to_nat (Z.log2 z))) z "") = Ok z /\
  py_int_of_str
    (String "-" (decimal_digits (S (Z.to_nat (Z.log2 z))) z "")) = Ok (- z).
Proof.
  intros Hz0 Hzb.
  destruct (scan_decimal_digits (S (Z.to_nat (Z.log2 z))) z ""
              (Nat.lt_0_succ _) (conj Hz0 (decimal_fuel z Hz0)))
    as (k & d & tail & Hk & Hlow & Hd & Hhead & Hscan).
  pose proof (digits_within_limit k z Hk Hlow Hzb) as Hk4300.
  clear Hzb Hlow.
  specialize (Hscan 0 0). cbn [scan_digits] in Hscan.
  replace (0 * 10 ^ k + z) with z in Hscan by lia.
  replace (0 + k) with k in Hscan by lia.
  assert (Hzero : (k =? 0) = false) by lia.
  assert (Hlimit : (int_max_str_digits <? k) = false)
    by (unfold int_max_str_digits; lia).
  unfold py_int_of_str. cbn [skip_spaces is_space].
  rewrite Hhead in *.
  destruct (digit_cases d Hd) as [->|[->|[->|[->|[->|[->|[->|[->|[->| ->]]]]]]]]];
    cbn -[scan_digits] in Hscan |- *; rewrite Hscan, Hzero, Hlimit;
    split; reflexivity.
Qed.

(** X15: [int] reads a decimal numeral back: for every integer z of at most
    4300 digits, [int] of the numeral of z is z, and [compute] answers a
    body whose field holds that numeral as a string exactly as it answers
    the body whose field holds z itself. *)
Theorem numeral_field_round_trip
  (py_round : spec_float -> Z -> spec_float) (z : Z) (t0 t1 : spec_float)
  (g : globals) :
  - 10 ^ 4300 < z < 10 ^ 4300 ->
  py_int (PyStr (decimal z)) = Ok z /\
  compute py_round (json_request (n_is (PyStr (decimal z))) t0 t1) g =
  compute py_round (json_request (n_is (PyInt z)) t0 t1) g.
Proof.
  intros [Hlo Hhi].
  assert (Hint : py_int (PyStr (decimal z)) = Ok z).
  { cbn [py_int]. unfold decimal. destruct (z <? 0) eqn:Hneg.
    - apply Z.ltb_lt in Hneg.
      apply -> Z.opp_lt_mono in Hlo. rewrite Z.opp_involutive in Hlo.
      clear Hhi.
      assert (H0 : 0 <= - z) by (clear Hlo; lia).
      destruct (int_of_digits (- z) H0 Hlo) as [_ H].
      rewrite H. f_equal. clear Hlo. lia.
    - apply Z.ltb_ge in Hneg.
      destruct (int_of_digits z Hneg Hhi) as [H _]. exact H. }
  clear Hlo Hhi.
  split; [exact Hint|]. unfold compute.
  rewrite (compute_try_field py_round
             (json_request (n_is (PyStr (decimal z))) t0 t1)
             [("n"%string, PyStr (decimal z))] (PyStr (decimal z))
             eq_refl eq_refl).
  rewrite (compute_try_field py_round
             (json_request (n_is (PyInt z)) t0 t1)
             [("n"%string, PyInt z)] (PyInt z) eq_refl eq_refl).
  rewrite Hint. reflexivity.
Qed.

Lemma numeral_field_round_trip_witness :
  - 10 ^ 4300 < 97 < 10 ^ 4300 /\
  py_int (PyStr (decimal 97)) = Ok 97.
Proof.
  assert (H : - 10 ^ 4300 < 97 < 10 ^ 4300).
  { split.
    - apply Z.lt_trans with 0; [|reflexivity].
      apply Z.opp_neg_pos, Z.pow_pos_nonneg; lia.
    - apply Z.lt_le_trans with (10 ^ 2); [reflexivity|].
      apply Z.pow_le_mono_r; lia. }
  split; [exact H|].
  exact (proj1 (numeral_field_round_trip (fun x _ => x) 97
                  (S754_zero false) (S754_zero false)
                  {| is_ready := true; shutdown_in_progress := false |} H)).
Defined.

(** X16: [compute] never looks at the flags: its answer and its log line
    are the same in every state, so it goes on answering 200 while the
    process is shutting down. *)
Theorem compute_ignores_flags
  (py_round : spec_float -> Z -> spec_float) (env : environ)
  (g g' : globals) :
  returned (compute py_round env g) = returned (compute py_round env g') /\
  logged (compute py_round env g) = logged (compute py_round env g').
Proof.
  unfold compute.
  destruct (compute_try py_round env) as [[resp lines]|[]];
    split; reflexivity.
Qed.
